(** * infra/app.py: the CDK application bootstrap

    The program under verification is the entry point [infra/app.py].  It is a
    straight-line script: it builds a [cdk.Environment], a [cdk.App], one
    [AgentBMCPSStack] registered in that app, and calls [app.synth()].

    Everything the script calls lives outside the file: [aws_cdk] is a
    third-party framework and [agent_b_mcp_server_stack] is a sibling module.
    The script is therefore embedded over an interface [Imports] of the four
    callables it uses; every call may return a value or raise, and may change
    the world outside the script.  The script itself is a term of a small
    state-and-exception monad that also keeps the journal of the calls made. *)

From stdpp Require Import gmap strings list.

Set Default Proof Using "Type".
Open Scope string_scope.
Open Scope list_scope.

(** ** Python outcomes and the process state *)

(** A Python call either returns a value or raises. *)
Inductive Result (E A : Type) : Type :=
| Ok (a : A)
| Raise (e : E).
Arguments Ok {E A} a.
Arguments Raise {E A} e.

(** The state of the process as far as the script can touch it: [os.environ]
    and the state [X] owned by the imported framework (construct tree, output
    directory, ...). *)
Record World (X : Type) : Type := MkWorld {
  environ : gmap string string;
  ext : X
}.
Arguments MkWorld {X} environ ext.
Arguments environ {X} w.
Arguments ext {X} w.

(** An imported callable: runs in the world, returns or raises, and leaves a
    world behind in both cases (Python keeps the mutations done before a
    [raise]). *)
Definition Extern (X E A : Type) : Type := World X -> Result E A * World X.

(** ** What the script imports

    [import aws_cdk as cdk] gives [cdk.Environment] and [cdk.App] (with its
    method [synth]); [from agent_b_mcp_server_stack import AgentBMCPSStack]
    gives the stack class.  [account] and [region] are [Optional[str]] for the
    framework, hence [option string]. *)
Record Imports : Type := MkImports {
  ExtT : Type;
  ExcT : Type;
  EnvironmentT : Type;
  AppT : Type;
  StackT : Type;
  AssemblyT : Type;
  cdk_Environment : option string -> option string -> Extern ExtT ExcT EnvironmentT;
  cdk_App : Extern ExtT ExcT AppT;
  AgentBMCPSStack : AppT -> string -> EnvironmentT -> Extern ExtT ExcT StackT;
  synth : AppT -> Extern ExtT ExcT AssemblyT
}.

(** ** The journal of calls *)

(** One constructor per call site of the script, with the arguments passed. *)
Inductive Call (I : Imports) : Type :=
| CallEnvironment (account region : option string)
| CallApp
| CallAgentBMCPSStack (scope : AppT I) (id : string) (env : EnvironmentT I)
| CallSynth (app : AppT I).
Arguments CallEnvironment {I} & account region.
Arguments CallApp {I}.
Arguments CallAgentBMCPSStack {I} & scope id env.
Arguments CallSynth {I} & app.

(** What a call hands back when it returns. *)
Definition Returns {I : Imports} (c : Call I) : Type :=
  match c with
  | CallEnvironment _ _ => EnvironmentT I
  | CallApp => AppT I
  | CallAgentBMCPSStack _ _ _ => StackT I
  | CallSynth _ => AssemblyT I
  end.

(** The imported callable behind a call. *)
Definition invoke {I : Imports} (c : Call I) : Extern (ExtT I) (ExcT I) (Returns c) :=
  match c with
  | CallEnvironment account region => cdk_Environment I account region
  | CallApp => cdk_App I
  | CallAgentBMCPSStack scope id env => AgentBMCPSStack I scope id env
  | CallSynth app => synth I app
  end.

(** A journal entry: the call made and how it ended, with the value returned
    or the exception raised. *)
Record Entry (I : Imports) : Type := Logged {
  entry_call : Call I;
  entry_result : Result (ExcT I) (Returns entry_call)
}.
Arguments Logged {I} entry_call entry_result.
Arguments entry_call {I} _.
Arguments entry_result {I} _.

(** The exception an entry ended with, if it did. *)
Definition entry_raised {I : Imports} (en : Entry I) : option (ExcT I) :=
  match entry_result en with
  | Ok _ => None
  | Raise e => Some e
  end.

(** The four steps of the bootstrap, without their arguments. *)
Inductive Step : Type :=
| ConstructEnvironment
| ConstructApp
| ConstructStack
| Synthesize.

#[global] Instance Step_eq_dec : EqDecision Step.
Proof. solve_decision. Defined.

Definition step_of {I : Imports} (c : Call I) : Step :=
  match c with
  | CallEnvironment _ _ => ConstructEnvironment
  | CallApp => ConstructApp
  | CallAgentBMCPSStack _ _ _ => ConstructStack
  | CallSynth _ => Synthesize
  end.

Definition steps {I : Imports} (j : list (Entry I)) : list Step :=
  map (fun en => step_of (entry_call en)) j.

(** ** The script monad *)

Record State (I : Imports) : Type := MkState {
  world : World (ExtT I);
  journal : list (Entry I)
}.
Arguments MkState {I} world journal.
Arguments world {I} s.
Arguments journal {I} s.

Definition Script (I : Imports) (A : Type) : Type :=
  State I -> Result (ExcT I) A * State I.

Definition ret {I : Imports} {A : Type} (a : A) : Script I A :=
  fun s => (Ok a, s).

(** Sequencing of statements: an exception skips the rest. *)
Definition bind {I : Imports} {A B : Type}
    (m : Script I A) (k : A -> Script I B) : Script I B :=
  fun s =>
    match m s with
    | (Ok a, s') => k a s'
    | (Raise e, s') => (Raise e, s')
    end.

(** A call expression: run the callable and append the call to the journal. *)
Definition perform {I : Imports} (c : Call I) : Script I (Returns c) :=
  fun s =>
    let (r, w') := invoke c (world s) in
    (r, MkState w' (journal s ++ [Logged c r])).

(** [os.getenv(key)]: a read of [os.environ]; no journal entry, it is not one
    of the four framework calls. *)
Definition os_getenv {I : Imports} (key : string) : Script I (option string) :=
  fun s => (Ok (environ (world s) !! key), s).

Declare Scope script_scope.
Delimit Scope script_scope with script.
Notation "x <- m ;; k" := (bind m (fun x => k))
  (at level 100, m at next level, right associativity) : script_scope.
Notation "m ;;; k" := (bind m (fun _ => k))
  (at level 100, right associativity) : script_scope.
Open Scope script_scope.

(** ** The script *)

(** The module globals bound by the script when it runs to its end. *)
Record Globals (I : Imports) : Type := MkGlobals {
  g_env : EnvironmentT I;
  g_app : AppT I
}.
Arguments MkGlobals {I} g_env g_app.
Arguments g_env {I} g.
Arguments g_app {I} g.

(** [infra/app.py], lines 6-19. *)
Definition app_py (I : Imports) : Script I (Globals I) :=
  env <- perform (CallEnvironment (Some "940333627479") (Some "us-east-1")) ;;
  app <- perform CallApp ;;
  perform (CallAgentBMCPSStack app "AgentBMCPSStack" env) ;;;
  perform (CallSynth app) ;;;
  ret (MkGlobals env app).

(** The same sequence with the two literals of lines 7-8 as parameters. *)
Definition bootstrap (I : Imports) (account region : option string)
    : Script I (Globals I) :=
  env <- perform (CallEnvironment account region) ;;
  app <- perform CallApp ;;
  perform (CallAgentBMCPSStack app "AgentBMCPSStack" env) ;;;
  perform (CallSynth app) ;;;
  ret (MkGlobals env app).

(** The alternative left commented out at lines 13-14: the stack receives a
    descriptor read from the process environment. *)
Definition app_py_getenv (I : Imports) : Script I (Globals I) :=
  env <- perform (CallEnvironment (Some "940333627479") (Some "us-east-1")) ;;
  app <- perform CallApp ;;
  a <- os_getenv "CDK_DEFAULT_ACCOUNT" ;;
  r <- os_getenv "CDK_DEFAULT_REGION" ;;
  env' <- perform (CallEnvironment a r) ;;
  perform (CallAgentBMCPSStack app "AgentBMCPSStack" env') ;;;
  perform (CallSynth app) ;;;
  ret (MkGlobals env app).

(** A run of the process: the script starts with an empty journal. *)
Definition start {I : Imports} (w : World (ExtT I)) : State I := MkState w [].

Definition run {I : Imports} {A : Type} (p : Script I A) (w : World (ExtT I))
    : Result (ExcT I) A * State I :=
  p (start w).

Definition outcome {I : Imports} {A : Type} (p : Script I A) (w : World (ExtT I))
    : Result (ExcT I) A :=
  fst (run p w).

Definition calls {I : Imports} {A : Type} (p : Script I A) (w : World (ExtT I))
    : list (Entry I) :=
  journal (snd (run p w)).

Definition final {I : Imports} {A : Type} (p : Script I A) (w : World (ExtT I))
    : World (ExtT I) :=
  world (snd (run p w)).

(** ** The framework as the specification describes it

    Neither [aws_cdk] nor [agent_b_mcp_server_stack] is part of the sources.
    The module below gives the four callables the behaviour that the
    specification's data model (section 3), component contracts (4.1, 6) and
    error taxonomy (7) ascribe to them. *)
Module Model.

(** Modelled from the spec: the EnvironmentDescriptor of [cdk.Environment],
    an immutable value with the two fields [account] and [region] and no
    identity beyond value equality. *)
Record EnvironmentDescriptor : Type := MkEnvironment {
  account : option string;
  region : option string
}.

(** Modelled from the spec: the DeploymentUnit built by [AgentBMCPSStack],
    which owns a name and an EnvironmentDescriptor; its resources are
    opaque. *)
Record DeploymentUnit : Type := MkUnit {
  unit_name : string;
  unit_env : EnvironmentDescriptor
}.

(** Modelled from the spec: the ApplicationContext of [cdk.App], the root
    container that owns zero or more deployment units. *)
Record ApplicationContext : Type := MkContext {
  units : list DeploymentUnit
}.

(** Modelled from the spec: the declarative output of synthesis, one
    rendered entry per owned unit. *)
Definition CloudAssembly : Type := list DeploymentUnit.

(** Modelled from the spec: the state of the framework, absent from the
    sources: the application contexts alive in the process (an [App] object
    is its index), a pending failure of the engine (credentials, network),
    and the output channel written by synthesis. *)
Record Engine : Type := MkEngine {
  contexts : list ApplicationContext;
  fault : option string;
  cdk_out : option CloudAssembly
}.

(** Modelled from the spec: the failures of section 7, raised by the absent
    framework: construction errors (duplicate name, invalid descriptor, a
    scope that is no application context) and synthesis errors. *)
Inductive Error : Type :=
| DuplicateName (id : string)
| InvalidDescriptor (env : EnvironmentDescriptor)
| NoSuchContext (app : nat)
| SynthesisError (msg : string).

Definition R (A : Type) : Type := Extern Engine Error A.

Definition with_ext (w : World Engine) (x : Engine) : World Engine :=
  MkWorld (environ w) x.

(** Modelled from the spec: an identifier usable for a real deployment is
    present and non-empty (invariant of the EnvironmentDescriptor). *)
Definition identifier_present (o : option string) : bool :=
  match o with
  | Some s => negb (String.eqb s EmptyString)
  | None => false
  end.

(** Modelled from the spec: a descriptor is valid when both fields are
    non-empty. *)
Definition valid_descriptor (env : EnvironmentDescriptor) : bool :=
  identifier_present (account env) && identifier_present (region env).

(** Modelled from the spec: a name is taken when a unit of the context
    already bears it (names are unique within a context). *)
Definition name_taken (id : string) (ctx : ApplicationContext) : bool :=
  existsb (fun u => String.eqb (unit_name u) id) (units ctx).

(** Modelled from the spec: the constructor [cdk.Environment], absent from
    the sources: pure, no validation, no error condition. *)
Definition Environment (account region : option string) : R EnvironmentDescriptor :=
  fun w => (Ok (MkEnvironment account region), w).

(** Modelled from the spec: the constructor [cdk.App], absent from the
    sources: creates an empty ApplicationContext. *)
Definition App : R nat :=
  fun w =>
    let x := ext w in
    (Ok (length (contexts x)),
     with_ext w (MkEngine (contexts x ++ [MkContext []]) (fault x) (cdk_out x))).

(** Modelled from the spec: the constructor [AgentBMCPSStack], absent from
    the sources: accepts (owning context, name, descriptor), rejects a
    duplicate name or an invalid descriptor, and otherwise returns the unit
    after recording it in the owning context. *)
Definition Stack (scope : nat) (id : string) (env : EnvironmentDescriptor)
    : R DeploymentUnit :=
  fun w =>
    let x := ext w in
    match contexts x !! scope with
    | None => (Raise (NoSuchContext scope), w)
    | Some ctx =>
        if name_taken id ctx then (Raise (DuplicateName id), w)
        else if valid_descriptor env then
          let u := MkUnit id env in
          (Ok u,
           with_ext w (MkEngine (<[scope := MkContext (units ctx ++ [u])]> (contexts x))
                                (fault x) (cdk_out x)))
        else (Raise (InvalidDescriptor env), w)
    end.

(** Modelled from the spec: the method [App.synth], absent from the sources:
    renders all units owned by the context to the output channel, or fails
    when the engine does. *)
Definition Synth (app : nat) : R CloudAssembly :=
  fun w =>
    let x := ext w in
    match contexts x !! app with
    | None => (Raise (NoSuchContext app), w)
    | Some ctx =>
        match fault x with
        | Some msg => (Raise (SynthesisError msg), w)
        | None =>
            (Ok (units ctx),
             with_ext w (MkEngine (contexts x) None (Some (units ctx))))
        end
    end.

(** Modelled from the spec: the imports of the script bound to the
    callables above. *)
Definition imports : Imports :=
  MkImports Engine Error EnvironmentDescriptor nat DeploymentUnit CloudAssembly
            Environment App Stack Synth.

(** A process that has built nothing yet. *)
Definition fresh : World Engine := MkWorld ∅ (MkEngine [] None None).

End Model.

(** Journal entries of the modelled framework. *)
Abbreviation MLogged := (@Logged Model.imports) (only parsing).

(** ** Test doubles *)
Module Double.

(** The model with a stack module whose constructor always raises. *)
Definition rejecting_stack (scope : nat) (id : string)
    (env : Model.EnvironmentDescriptor) : Model.R Model.DeploymentUnit :=
  fun w => (Raise (Model.DuplicateName id), w).

Definition imports : Imports :=
  MkImports Model.Engine Model.Error Model.EnvironmentDescriptor nat
            Model.DeploymentUnit Model.CloudAssembly
            Model.Environment Model.App rejecting_stack Model.Synth.

End Double.

(** ** Vocabulary of the properties *)

(** The order of the four steps in the source: lines 6, 11, 15 and 19. *)
Definition source_order : list Step :=
  [ConstructEnvironment; ConstructApp; ConstructStack; Synthesize].

(** The order announced by the specification (section 4.2). *)
Definition announced_order : list Step :=
  [ConstructApp; ConstructEnvironment; ConstructStack; Synthesize].

(** Lines 6-17 as a fragment: a descriptor is built from a pair and handed to
    the stack constructor. *)
Definition descriptor_to_unit (I : Imports) (scope : AppT I) (id : string)
    (account region : option string) : Script I (StackT I) :=
  env <- perform (CallEnvironment account region) ;;
  perform (CallAgentBMCPSStack scope id env).

(** A configured identifier that is absent ([None], what [os.getenv] gives for
    an unset variable) or the empty string. *)
Definition missing_or_empty (o : option string) : Prop :=
  o = None \/ o = Some EmptyString.

(** An imported callable respects a relation between worlds when, started in
    related worlds, it ends the same way and leaves related worlds. *)
Definition respects {X E A : Type} (R : relation (World X)) (f : Extern X E A) : Prop :=
  forall w1 w2, R w1 w2 -> fst (f w1) = fst (f w2) /\ R (snd (f w1)) (snd (f w2)).

Definition imports_respect (I : Imports) (R : relation (World (ExtT I))) : Prop :=
  forall c : Call I, respects R (invoke c).

(** Two process states that differ at most in the value or presence of
    [CDK_DEFAULT_ACCOUNT] and [CDK_DEFAULT_REGION]. *)
Definition differ_only_in_account_region {X : Type} (w1 w2 : World X) : Prop :=
  ext w1 = ext w2 /\
  forall k : string,
    k <> "CDK_DEFAULT_ACCOUNT" -> k <> "CDK_DEFAULT_REGION" ->
    environ w1 !! k = environ w2 !! k.

(** Two process states of the model with the same configuration: the same
    application contexts and the same engine condition; what earlier runs left
    on the output channel, and the process environment, may differ. *)
Definition same_configuration (w1 w2 : World Model.Engine) : Prop :=
  Model.contexts (ext w1) = Model.contexts (ext w2) /\
  Model.fault (ext w1) = Model.fault (ext w2).

(** A script respects a relation between worlds when, started in related
    worlds with the same journal, it ends the same way, with the same journal,
    in related worlds. *)
Definition script_respects {I : Imports} {A : Type}
    (R : relation (World (ExtT I))) (p : Script I A) : Prop :=
  forall s1 s2,
    R (world s1) (world s2) -> journal s1 = journal s2 ->
    fst (p s1) = fst (p s2) /\
    journal (snd (p s1)) = journal (snd (p s2)) /\
    R (world (snd (p s1))) (world (snd (p s2))).

(** A process started with nothing in its environment, and one started with
    the two variables set by the deployment tool. *)
Definition with_cdk_defaults : World Model.Engine :=
  MkWorld (<["CDK_DEFAULT_ACCOUNT" := "111111111111"]>
             (<["CDK_DEFAULT_REGION" := "eu-west-1"]> ∅))
          (Model.MkEngine [] None None).

(** A process started over the output that an earlier run left behind. *)
Definition rerun : World Model.Engine :=
  MkWorld ∅
    (Model.MkEngine [] None
       (Some [Model.MkUnit "AgentBMCPSStack"
                (Model.MkEnvironment (Some "940333627479") (Some "us-east-1"))])).

(** A property of the process state that every imported callable keeps,
    whether it returns or raises. *)
Definition imports_preserve (I : Imports) (P : World (ExtT I) -> Prop) : Prop :=
  forall (c : Call I) (w : World (ExtT I)), P w -> P (snd (invoke c w)).

(** A script keeps a property of the process state. *)
Definition script_preserves {I : Imports} {A : Type}
    (P : World (ExtT I) -> Prop) (p : Script I A) : Prop :=
  forall s, P (world s) -> P (world (snd (p s))).

(** The position of a step in the source. *)
Definition rank (st : Step) : nat :=
  match st with
  | ConstructEnvironment => 0
  | ConstructApp => 1
  | ConstructStack => 2
  | Synthesize => 3
  end.

(** * Properties *)

(** ** Running the script *)

(** Case analysis on the calls of a run, in program order. *)
Ltac next_call :=
  match goal with
  | |- context [cdk_Environment ?I ?a ?r ?w] =>
      let E := fresh "Henv" in
      destruct (cdk_Environment I a r w) as [[?env|?e] ?w] eqn:E
  | |- context [cdk_App ?I ?w] =>
      let E := fresh "Happ" in
      destruct (cdk_App I w) as [[?app|?e] ?w] eqn:E
  | |- context [AgentBMCPSStack ?I ?a ?n ?v ?w] =>
      let E := fresh "Hstack" in
      destruct (AgentBMCPSStack I a n v w) as [[?stack|?e] ?w] eqn:E
  | |- context [synth ?I ?a ?w] =>
      let E := fresh "Hsynth" in
      destruct (synth I a w) as [[?asm|?e] ?w] eqn:E
  end.

Ltac unfold_run :=
  unfold outcome, calls, final, run, start, app_py, bootstrap, descriptor_to_unit,
    bind, perform, ret; cbn [invoke world journal fst snd app].

(** A concrete list of steps does not contain a given step. *)
Ltac not_in_list :=
  cbn; rewrite ?elem_of_cons, ?elem_of_nil; intuition discriminate.

Ltac run_script := unfold_run; repeat (next_call; cbn [world journal fst snd app]).

Lemma app_py_bootstrap (I : Imports) :
  app_py I = bootstrap I (Some "940333627479") (Some "us-east-1").
Proof. reflexivity. Qed.

(** The steps of any run of the bootstrap are an initial segment of the source
    order, whatever the imports do. *)
Lemma bootstrap_steps_prefix (I : Imports) (a r : option string) (w : World (ExtT I)) :
  steps (calls (bootstrap I a r) w) `prefix_of` source_order.
Proof.
  run_script; cbn; unfold source_order; eexists; reflexivity.
Qed.

Lemma source_order_NoDup : NoDup source_order.
Proof. apply (bool_decide_unpack _). vm_compute. exact I. Qed.

(** ** The order of the steps *)

(** C1, as stated, fails: on a run where every call returns, the descriptor is
    constructed before the application context, not after it. *)
Lemma bootstrap_order_counterexample :
  steps (calls (app_py Model.imports) Model.fresh)
    = [ConstructEnvironment; ConstructApp; ConstructStack; Synthesize] /\
  steps (calls (app_py Model.imports) Model.fresh) <> announced_order.
Proof. split; [reflexivity | discriminate]. Qed.

(** C1, amended: whatever the imported callables do, the steps taken by the
    script are an initial segment of: EnvironmentDescriptor, ApplicationContext,
    DeploymentUnit, synth; no step occurs twice; and a run that ends normally
    has taken all four, each once, in that order. *)
Theorem bootstrap_sequence (I : Imports) (w : World (ExtT I)) :
  steps (calls (app_py I) w) `prefix_of` source_order /\
  NoDup (steps (calls (app_py I) w)) /\
  (forall g, outcome (app_py I) w = Ok g -> steps (calls (app_py I) w) = source_order).
Proof.
  assert (Hp : steps (calls (app_py I) w) `prefix_of` source_order)
    by (rewrite app_py_bootstrap; apply bootstrap_steps_prefix).
  split; [exact Hp | split].
  - destruct Hp as [k Hk].
    pose proof source_order_NoDup as Hn. rewrite Hk in Hn.
    by apply NoDup_app in Hn as [? _].
  - clear Hp. run_script; intros g Hg; try discriminate Hg. reflexivity.
Qed.

(** ** Failures *)

(** The shape of a run: either every call returned and the script ends
    normally, or the last call made raised, the calls before it returned, and
    the script ends with the exception of that last call. *)
Lemma run_shape (I : Imports) (w : World (ExtT I)) :
  (exists g,
      outcome (app_py I) w = Ok g /\
      Forall (fun en => entry_raised en = None) (calls (app_py I) w)) \/
  (exists e before en,
      outcome (app_py I) w = Raise e /\
      calls (app_py I) w = before ++ [en] /\
      entry_raised en = Some e /\
      Forall (fun en => entry_raised en = None) before).
Proof.
  run_script.
  - left. eexists. split; [reflexivity | by repeat constructor].
  - right. eexists _, [_; _; _], _. by repeat split; repeat constructor.
  - right. eexists _, [_; _], _. by repeat split; repeat constructor.
  - right. eexists _, [_], _. by repeat split; repeat constructor.
  - right. eexists _, [], _. by repeat split; repeat constructor.
Qed.

(** C7: the script handles nothing.  In any run, a call that raised is the
    last call made and its exception is the outcome of the script, unchanged;
    and the script never ends with an exception that no call raised. *)
Theorem failures_propagate (I : Imports) (w : World (ExtT I)) :
  (forall en e,
      en ∈ calls (app_py I) w -> entry_raised en = Some e ->
      outcome (app_py I) w = Raise e /\
      exists before, calls (app_py I) w = before ++ [en]) /\
  (forall e,
      outcome (app_py I) w = Raise e ->
      exists en, en ∈ calls (app_py I) w /\ entry_raised en = Some e).
Proof.
  destruct (run_shape I w) as [(g & Ho & Hall) | (x & before & last & Ho & Hc & Hl & Hall)].
  - split.
    + intros en e Hin Hr. rewrite Forall_forall in Hall.
      specialize (Hall en Hin). congruence.
    + intros e He. congruence.
  - split.
    + intros en e Hin Hr. rewrite Hc in Hin |- *.
      apply elem_of_app in Hin as [Hin | Hin].
      * rewrite Forall_forall in Hall. specialize (Hall en Hin). congruence.
      * apply list_elem_of_singleton in Hin as ->.
        split; [congruence | by exists before].
    + intros e He. exists last. split; [| congruence].
      rewrite Hc. apply elem_of_app. right. by apply list_elem_of_singleton.
Qed.

(** C10: if the constructor of the stack raises, for whatever reason, the
    script ends with that exception, [synth] is not among the calls made, and
    the world is left as the constructor left it. *)
Theorem stack_failure_skips_synth (I : Imports) (w : World (ExtT I))
    (en : Entry I) (e : ExcT I) :
  en ∈ calls (app_py I) w ->
  step_of (entry_call en) = ConstructStack ->
  entry_raised en = Some e ->
  outcome (app_py I) w = Raise e /\
  (Synthesize ∉ steps (calls (app_py I) w)) /\
  exists app env w', final (app_py I) w = snd (AgentBMCPSStack I app "AgentBMCPSStack" env w').
Proof.
  revert en e. run_script; intros en x Hin Hs Hr.
  all: rewrite ?elem_of_cons, elem_of_nil in Hin.
  all: repeat (destruct Hin as [-> | Hin]); try contradiction; cbn in Hs, Hr;
       try discriminate Hs; try discriminate Hr.
  injection Hr as <-. split; [reflexivity | split].
  - not_in_list.
  - exists app, env, w1. by rewrite Hstack.
Qed.

Lemma stack_failure_skips_synth_witness :
  let en : Entry Double.imports :=
    Logged (CallAgentBMCPSStack (I := Double.imports) 0 "AgentBMCPSStack"
              (Model.MkEnvironment (Some "940333627479") (Some "us-east-1")))
           (Raise (Model.DuplicateName "AgentBMCPSStack")) in
  en ∈ calls (app_py Double.imports) Model.fresh /\
  step_of (entry_call en) = ConstructStack /\
  entry_raised en = Some (Model.DuplicateName "AgentBMCPSStack") /\
  outcome (app_py Double.imports) Model.fresh
    = Raise (Model.DuplicateName "AgentBMCPSStack") /\
  (Synthesize ∉ steps (calls (app_py Double.imports) Model.fresh)).
Proof.
  intros en.
  assert (Hin : en ∈ calls (app_py Double.imports) Model.fresh)
    by (vm_compute; repeat constructor).
  split; [exact Hin |]. split; [reflexivity |]. split; [reflexivity |].
  destruct (stack_failure_skips_synth Double.imports Model.fresh en
              (Model.DuplicateName "AgentBMCPSStack") Hin eq_refl eq_refl)
    as (Ho & Hs & _).
  split; [exact Ho | exact Hs].
Defined.

(** ** The script on the modelled framework *)

Lemma lookup_fresh_context {A : Type} (l : list A) (c : A) :
  (l ++ [c]) !! length l = Some c.
Proof. by apply list_lookup_middle. Qed.

Lemma insert_fresh_context {A : Type} (l : list A) (c c' : A) :
  <[length l := c']> (l ++ [c]) = l ++ [c'].
Proof.
  rewrite insert_app_r_alt by lia. by rewrite Nat.sub_diag.
Qed.

(** The complete run of the bootstrap on the modelled framework, from any
    process state and for any configured pair. *)
Lemma model_run (a r : option string) (w : World Model.Engine) :
  let x := ext w in
  let n := length (Model.contexts x) in
  let env := Model.MkEnvironment a r in
  let u := Model.MkUnit "AgentBMCPSStack" env in
  let made := Model.contexts x ++ [Model.MkContext [u]] in
  run (bootstrap Model.imports a r) w =
    if Model.valid_descriptor env then
      match Model.fault x with
      | None =>
          (Ok (MkGlobals (I := Model.imports) env n),
           MkState (I := Model.imports)
             (MkWorld (environ w) (Model.MkEngine made None (Some [u])))
             [MLogged (CallEnvironment a r) (Ok env);
              MLogged CallApp (Ok n);
              MLogged (CallAgentBMCPSStack n "AgentBMCPSStack" env) (Ok u);
              MLogged (CallSynth n) (Ok [u])])
      | Some msg =>
          (Raise (Model.SynthesisError msg),
           MkState (I := Model.imports)
             (MkWorld (environ w) (Model.MkEngine made (Some msg) (Model.cdk_out x)))
             [MLogged (CallEnvironment a r) (Ok env);
              MLogged CallApp (Ok n);
              MLogged (CallAgentBMCPSStack n "AgentBMCPSStack" env) (Ok u);
              MLogged (CallSynth n) (Raise (Model.SynthesisError msg))])
      end
    else
      (Raise (Model.InvalidDescriptor env),
       MkState (I := Model.imports)
         (MkWorld (environ w)
            (Model.MkEngine (Model.contexts x ++ [Model.MkContext []])
               (Model.fault x) (Model.cdk_out x)))
         [MLogged (CallEnvironment a r) (Ok env);
          MLogged CallApp (Ok n);
          MLogged (CallAgentBMCPSStack n "AgentBMCPSStack" env)
                 (Raise (Model.InvalidDescriptor env))]).
Proof.
  destruct w as [vars [ctxs flt out]]. cbn [ext Model.contexts Model.fault Model.cdk_out environ].
  unfold run, start, bootstrap, bind, perform, ret.
  cbn [invoke world journal Model.imports cdk_Environment cdk_App AgentBMCPSStack synth].
  unfold Model.Environment, Model.App, Model.Stack, Model.Synth, Model.with_ext.
  cbn [ext environ world journal Model.contexts Model.fault Model.cdk_out app].
  rewrite lookup_fresh_context. cbn [Model.name_taken Model.units existsb].
  destruct (Model.valid_descriptor _); [| reflexivity].
  cbn [ext environ world journal Model.contexts Model.fault Model.cdk_out app].
  rewrite insert_fresh_context, lookup_fresh_context.
  destruct flt; reflexivity.
Qed.

Lemma model_app_py_run (w : World Model.Engine) :
  let x := ext w in
  let n := length (Model.contexts x) in
  let env := Model.MkEnvironment (Some "940333627479") (Some "us-east-1") in
  let u := Model.MkUnit "AgentBMCPSStack" env in
  let made := Model.contexts x ++ [Model.MkContext [u]] in
  run (app_py Model.imports) w =
    match Model.fault x with
    | None =>
        (Ok (MkGlobals (I := Model.imports) env n),
         MkState (I := Model.imports)
           (MkWorld (environ w) (Model.MkEngine made None (Some [u])))
           [MLogged (CallEnvironment (Some "940333627479") (Some "us-east-1")) (Ok env);
            MLogged CallApp (Ok n);
            MLogged (CallAgentBMCPSStack n "AgentBMCPSStack" env) (Ok u);
            MLogged (CallSynth n) (Ok [u])])
    | Some msg =>
        (Raise (Model.SynthesisError msg),
         MkState (I := Model.imports)
           (MkWorld (environ w) (Model.MkEngine made (Some msg) (Model.cdk_out x)))
           [MLogged (CallEnvironment (Some "940333627479") (Some "us-east-1")) (Ok env);
            MLogged CallApp (Ok n);
            MLogged (CallAgentBMCPSStack n "AgentBMCPSStack" env) (Ok u);
            MLogged (CallSynth n) (Raise (Model.SynthesisError msg))])
    end.
Proof.
  rewrite app_py_bootstrap.
  exact (model_run (Some "940333627479") (Some "us-east-1") w).
Qed.

(** ** Scenario 1 *)

(** C2: run with account "940333627479" and region "us-east-1", from any
    process state, the script has the stack constructor return a unit named
    "AgentBMCPSStack" whose descriptor is that pair, the unit is the one owned
    by the new application context, and [synth] is called exactly once. *)
Theorem scenario_literals (w : World Model.Engine) :
  let app := length (Model.contexts (ext w)) in
  let env := Model.MkEnvironment (Some "940333627479") (Some "us-east-1") in
  let u := Model.MkUnit "AgentBMCPSStack" env in
  MLogged (CallAgentBMCPSStack app "AgentBMCPSStack" env) (Ok u)
    ∈ calls (app_py Model.imports) w /\
  Model.contexts (ext (final (app_py Model.imports) w)) !! app
    = Some (Model.MkContext [u]) /\
  Model.account (Model.unit_env u) = Some "940333627479" /\
  Model.region (Model.unit_env u) = Some "us-east-1" /\
  count_occ Step_eq_dec (steps (calls (app_py Model.imports) w)) ConstructStack = 1 /\
  count_occ Step_eq_dec (steps (calls (app_py Model.imports) w)) Synthesize = 1.
Proof.
  cbv zeta. unfold calls, final.
  rewrite model_app_py_run.
  destruct (Model.fault (ext w)); cbn [snd journal world ext Model.contexts].
  all: rewrite lookup_fresh_context.
  all: repeat split; try reflexivity.
  all: rewrite !elem_of_cons; right; right; left; reflexivity.
Qed.

(** ** The descriptor *)

(** C4: the constructor of the descriptor validates nothing, changes nothing
    and cannot fail: for every pair, present or missing, empty or not, it
    returns the descriptor holding exactly that pair and leaves the world as
    it was. *)
Theorem environment_constructor_total
    (account region : option string) (w : World Model.Engine) :
  exists d,
    invoke (I := Model.imports) (CallEnvironment account region) w = (Ok d, w) /\
    Model.account d = account /\
    Model.region d = region.
Proof. by eexists. Qed.

(** C3: for a valid pair (both identifiers non-empty), a context alive in the
    process and a name free in it, building the descriptor and handing it to
    the stack constructor returns a unit that records the pair unchanged, and
    that unit is added to the context. *)
Theorem environment_reaches_unit (account region : string)
    (w : World Model.Engine) (scope : nat) (id : string)
    (ctx : Model.ApplicationContext) :
  account <> EmptyString -> region <> EmptyString ->
  Model.contexts (ext w) !! scope = Some ctx ->
  Model.name_taken id ctx = false ->
  let env := Model.MkEnvironment (Some account) (Some region) in
  let u := Model.MkUnit id env in
  outcome (descriptor_to_unit Model.imports scope id (Some account) (Some region)) w
    = Ok u /\
  Model.unit_env u = env /\
  Model.account (Model.unit_env u) = Some account /\
  Model.region (Model.unit_env u) = Some region /\
  Model.contexts
    (ext (final (descriptor_to_unit Model.imports scope id (Some account) (Some region)) w))
    !! scope = Some (Model.MkContext (Model.units ctx ++ [u])).
Proof.
  intros Ha Hr Hctx Hfree env u.
  assert (Hv : Model.valid_descriptor env = true).
  { unfold Model.valid_descriptor, env; cbn.
    apply String.eqb_neq in Ha, Hr. by rewrite Ha, Hr. }
  unfold outcome, final, run, start, descriptor_to_unit, bind, perform.
  cbn [invoke world journal Model.imports cdk_Environment AgentBMCPSStack].
  unfold Model.Environment, Model.Stack, Model.with_ext.
  cbn [world journal fst snd]. rewrite Hctx, Hfree. fold env. rewrite Hv.
  cbn [world journal fst snd ext Model.contexts].
  repeat split.
  apply list_lookup_insert_eq. by eapply lookup_lt_Some.
Qed.

Lemma environment_reaches_unit_witness :
  let w := snd (Model.App Model.fresh) in
  let env := Model.MkEnvironment (Some "940333627479") (Some "us-east-1") in
  "940333627479" <> EmptyString /\ "us-east-1" <> EmptyString /\
  Model.contexts (ext w) !! 0 = Some (Model.MkContext []) /\
  Model.name_taken "AgentBMCPSStack" (Model.MkContext []) = false /\
  outcome (descriptor_to_unit Model.imports 0 "AgentBMCPSStack"
             (Some "940333627479") (Some "us-east-1")) w
    = Ok (Model.MkUnit "AgentBMCPSStack" env).
Proof.
  intros w env.
  assert (Ha : "940333627479" <> EmptyString) by discriminate.
  assert (Hr : "us-east-1" <> EmptyString) by discriminate.
  assert (Hc : Model.contexts (ext w) !! 0 = Some (Model.MkContext []))
    by reflexivity.
  assert (Hf : Model.name_taken "AgentBMCPSStack" (Model.MkContext []) = false)
    by reflexivity.
  repeat (split; [assumption |]).
  exact (proj1 (environment_reaches_unit "940333627479" "us-east-1" w 0
                  "AgentBMCPSStack" (Model.MkContext []) Ha Hr Hc Hf)).
Defined.

(** ** Scenario 2 *)

Lemma missing_or_empty_invalid (a r : option string) :
  missing_or_empty a \/ missing_or_empty r ->
  Model.valid_descriptor (Model.MkEnvironment a r) = false.
Proof.
  unfold Model.valid_descriptor; cbn [Model.account Model.region].
  intros [[-> | ->] | [-> | ->]]; cbn; try reflexivity.
  all: by rewrite andb_false_r.
Qed.

(** C5: when the configured account or region is missing or empty, the
    descriptor is built, the application context is built, the constructor of
    the deployment unit rejects the descriptor, the script ends with that
    exception, and [synth] is never reached: nothing is written to the output
    channel. *)
Theorem empty_identifier_fails (a r : option string) (w : World Model.Engine) :
  missing_or_empty a \/ missing_or_empty r ->
  let n := length (Model.contexts (ext w)) in
  let env := Model.MkEnvironment a r in
  calls (bootstrap Model.imports a r) w
    = [MLogged (CallEnvironment a r) (Ok env);
       MLogged CallApp (Ok n);
       MLogged (CallAgentBMCPSStack n "AgentBMCPSStack" env)
               (Raise (Model.InvalidDescriptor env))] /\
  outcome (bootstrap Model.imports a r) w = Raise (Model.InvalidDescriptor env) /\
  (Synthesize ∉ steps (calls (bootstrap Model.imports a r) w)) /\
  Model.cdk_out (ext (final (bootstrap Model.imports a r) w)) = Model.cdk_out (ext w).
Proof.
  intros H. cbv zeta. unfold calls, outcome, final.
  rewrite model_run, (missing_or_empty_invalid a r H).
  cbn [fst snd journal world ext Model.cdk_out].
  repeat split. not_in_list.
Qed.

Lemma empty_identifier_fails_witness :
  (missing_or_empty (Some EmptyString) \/ missing_or_empty (Some "us-east-1")) /\
  outcome (bootstrap Model.imports (Some EmptyString) (Some "us-east-1")) Model.fresh
    = Raise (Model.InvalidDescriptor (Model.MkEnvironment (Some EmptyString) (Some "us-east-1"))) /\
  (Synthesize ∉ steps (calls (bootstrap Model.imports (Some EmptyString) (Some "us-east-1"))
                          Model.fresh)).
Proof.
  assert (H : missing_or_empty (Some EmptyString) \/ missing_or_empty (Some "us-east-1"))
    by (left; right; reflexivity).
  split; [exact H |].
  destruct (empty_identifier_fails (Some EmptyString) (Some "us-east-1") Model.fresh H)
    as (_ & Ho & Hs & _).
  split; [exact Ho | exact Hs].
Defined.

(** ** Immutability of the descriptor *)

(** C6: the descriptor is a value that no step of the bootstrap changes.  From
    any process state, the descriptor handed to the stack constructor, the one
    recorded by every unit of the application context after the run, the one
    bound to [env] when the script ends, and the one rendered by synthesis,
    all equal the descriptor as constructed at line 6. *)
Theorem descriptor_never_mutated (w : World Model.Engine) :
  let n := length (Model.contexts (ext w)) in
  let env0 := Model.MkEnvironment (Some "940333627479") (Some "us-east-1") in
  (forall en scope id env,
      en ∈ calls (app_py Model.imports) w ->
      entry_call en = CallAgentBMCPSStack scope id env -> env = env0) /\
  (exists ctx,
      Model.contexts (ext (final (app_py Model.imports) w)) !! n = Some ctx /\
      Forall (fun u => Model.unit_env u = env0) (Model.units ctx)) /\
  (forall g,
      outcome (app_py Model.imports) w = Ok g ->
      g_env g = env0 /\
      Model.cdk_out (ext (final (app_py Model.imports) w))
        = Some [Model.MkUnit "AgentBMCPSStack" env0]).
Proof.
  cbv zeta. unfold calls, outcome, final. rewrite model_app_py_run.
  destruct (Model.fault (ext w)); cbn [fst snd journal world ext Model.contexts Model.cdk_out].
  all: rewrite lookup_fresh_context.
  all: split; [| split].
  all: try (eexists; split; [reflexivity | by repeat constructor]).
  all: try (intros g Hg; try discriminate Hg; injection Hg as <-; by split).
  all: intros en scope id env Hin Hc.
  all: rewrite !elem_of_cons, elem_of_nil in Hin.
  all: repeat (destruct Hin as [-> | Hin]); try contradiction; cbn in Hc;
       try discriminate Hc; by injection Hc as _ _ <-.
Qed.

(** ** Two runs side by side *)

Section Relational.
Context {I : Imports} (R : relation (World (ExtT I))).

Lemma ret_respects {A : Type} (a : A) : script_respects (I := I) R (ret a).
Proof. intros s1 s2 HR Hj. by cbn. Qed.

Lemma perform_respects (c : Call I) :
  imports_respect I R -> script_respects R (perform c).
Proof.
  intros HI s1 s2 HR Hj. unfold perform.
  destruct (HI c _ _ HR) as [Hres Hw].
  destruct (invoke c (world s1)) as [r1 w1], (invoke c (world s2)) as [r2 w2].
  cbn in *. subst r2. by rewrite Hj.
Qed.

Lemma bind_respects {A B : Type} (m : Script I A) (k : A -> Script I B) :
  script_respects R m -> (forall a, script_respects R (k a)) ->
  script_respects R (bind m k).
Proof.
  intros Hm Hk s1 s2 HR Hj. unfold bind.
  destruct (Hm s1 s2 HR Hj) as (Hres & Hj' & HR').
  destruct (m s1) as [r1 t1], (m s2) as [r2 t2]. cbn in *. subst r2.
  destruct r1 as [a | e]; [by apply Hk | by cbn].
Qed.

(** The bootstrap passes on to its result whatever relation the imported
    callables respect. *)
Lemma bootstrap_respects (a r : option string) :
  imports_respect I R -> script_respects R (bootstrap I a r).
Proof.
  intros HI. unfold bootstrap.
  repeat (apply bind_respects; [by apply perform_respects | intros ?]).
  apply ret_respects.
Qed.

Lemma run_respects {A : Type} (p : Script I A) (w1 w2 : World (ExtT I)) :
  script_respects R p -> R w1 w2 ->
  outcome p w1 = outcome p w2 /\
  calls p w1 = calls p w2 /\
  R (final p w1) (final p w2).
Proof. intros Hp HR. by apply Hp. Qed.

End Relational.

(** The modelled framework never looks at the process environment. *)
Lemma model_ignores_account_region :
  imports_respect Model.imports differ_only_in_account_region.
Proof.
  intros c [v1 x1] [v2 x2] [Hx Hv]. cbn in Hx, Hv. subst x2.
  unfold differ_only_in_account_region.
  destruct c; cbn [invoke Model.imports cdk_Environment cdk_App AgentBMCPSStack synth];
    unfold Model.Environment, Model.App, Model.Stack, Model.Synth, Model.with_ext;
    cbn [ext environ];
    repeat case_match; cbn [fst snd ext environ]; by repeat split.
Qed.

(** The modelled framework depends on the contexts and on the condition of the
    engine only, not on what earlier runs left on the output channel. *)
Lemma model_respects_same_configuration :
  imports_respect Model.imports same_configuration.
Proof.
  intros c [v1 [c1 f1 o1]] [v2 [c2 f2 o2]] [Hc Hf]. cbn in Hc, Hf. subst c2 f2.
  unfold same_configuration.
  destruct c; cbn [invoke Model.imports cdk_Environment cdk_App AgentBMCPSStack synth];
    unfold Model.Environment, Model.App, Model.Stack, Model.Synth, Model.with_ext;
    cbn [ext environ Model.contexts Model.fault Model.cdk_out];
    repeat case_match; cbn [fst snd ext environ Model.contexts Model.fault]; by repeat split.
Qed.

Lemma with_cdk_defaults_differ :
  differ_only_in_account_region Model.fresh with_cdk_defaults.
Proof.
  split; [reflexivity |]. intros k Ha Hr. cbn.
  by rewrite !lookup_insert_ne.
Qed.

(** C8: the two variables [CDK_DEFAULT_ACCOUNT] and [CDK_DEFAULT_REGION] have
    no influence on the script.  Provided the imported callables do not read
    them either, two runs whose process states differ only in the value or
    presence of these variables end the same way, make the same calls with the
    same arguments and the same results (descriptor, unit and synthesized
    output included), and leave process states that again differ only there. *)
Theorem environ_independence (I : Imports) (w1 w2 : World (ExtT I)) :
  imports_respect I differ_only_in_account_region ->
  differ_only_in_account_region w1 w2 ->
  outcome (app_py I) w1 = outcome (app_py I) w2 /\
  calls (app_py I) w1 = calls (app_py I) w2 /\
  ext (final (app_py I) w1) = ext (final (app_py I) w2).
Proof.
  intros HI Hw. rewrite app_py_bootstrap.
  pose proof (bootstrap_respects differ_only_in_account_region
                (Some "940333627479") (Some "us-east-1") HI) as Hb.
  destruct (run_respects _ _ w1 w2 Hb Hw) as (Ho & Hc & Hf).
  split; [exact Ho | split; [exact Hc | exact (proj1 Hf)]].
Qed.

Lemma environ_independence_witness :
  imports_respect Model.imports differ_only_in_account_region /\
  differ_only_in_account_region Model.fresh with_cdk_defaults /\
  outcome (app_py Model.imports) Model.fresh
    = outcome (app_py Model.imports) with_cdk_defaults /\
  calls (app_py Model.imports) Model.fresh
    = calls (app_py Model.imports) with_cdk_defaults.
Proof.
  split; [exact model_ignores_account_region |].
  split; [exact with_cdk_defaults_differ |].
  destruct (environ_independence Model.imports Model.fresh with_cdk_defaults
              model_ignores_account_region with_cdk_defaults_differ)
    as (Ho & Hc & _).
  split; [exact Ho | exact Hc].
Defined.

(** The disabled alternative does depend on the two variables: without them
    the stack constructor rejects the descriptor, with them the run ends
    normally. *)
Lemma getenv_path_depends_on_environ :
  differ_only_in_account_region Model.fresh with_cdk_defaults /\
  outcome (app_py_getenv Model.imports) Model.fresh
    <> outcome (app_py_getenv Model.imports) with_cdk_defaults.
Proof.
  split; [exact with_cdk_defaults_differ |].
  vm_compute. discriminate.
Qed.

(** C9: the bootstrap adds no source of variation of its own.  For any notion
    [R] of identical configuration that the imported callables honour, two
    runs started in [R]-related process states end the same way and make the
    same sequence of calls, with the same descriptor, the same unit name and
    the same results, the synthesized output included; the states they leave
    are again [R]-related. *)
Theorem bootstrap_deterministic (I : Imports) (R : relation (World (ExtT I)))
    (w1 w2 : World (ExtT I)) :
  imports_respect I R ->
  R w1 w2 ->
  outcome (app_py I) w1 = outcome (app_py I) w2 /\
  calls (app_py I) w1 = calls (app_py I) w2 /\
  R (final (app_py I) w1) (final (app_py I) w2).
Proof.
  intros HI Hw. rewrite app_py_bootstrap.
  apply run_respects; [by apply bootstrap_respects | exact Hw].
Qed.

Lemma bootstrap_deterministic_witness :
  imports_respect Model.imports same_configuration /\
  same_configuration Model.fresh rerun /\
  outcome (app_py Model.imports) Model.fresh = outcome (app_py Model.imports) rerun /\
  calls (app_py Model.imports) Model.fresh = calls (app_py Model.imports) rerun.
Proof.
  assert (Hw : same_configuration Model.fresh rerun) by (split; reflexivity).
  split; [exact model_respects_same_configuration |].
  split; [exact Hw |].
  destruct (bootstrap_deterministic Model.imports same_configuration
              Model.fresh rerun model_respects_same_configuration Hw)
    as (Ho & Hc & _).
  split; [exact Ho | exact Hc].
Defined.

(** * Further properties of the script *)

(** ** How the objects flow between the calls *)

(** X1: whatever the imported callables do, a call of the stack constructor
    found in the journal was made with the identifier "AgentBMCPSStack", with
    the application that the call [cdk.App()] returned as scope, and with the
    descriptor that the call [cdk.Environment(...)] of lines 6-9 returned. *)
Theorem stack_receives_constructed_objects (I : Imports) (w : World (ExtT I))
    (en : Entry I) (scope : AppT I) (id : string) (env : EnvironmentT I) :
  en ∈ calls (app_py I) w ->
  entry_call en = CallAgentBMCPSStack scope id env ->
  id = "AgentBMCPSStack" /\
  Logged (CallEnvironment (Some "940333627479") (Some "us-east-1")) (Ok env)
    ∈ calls (app_py I) w /\
  Logged CallApp (Ok scope) ∈ calls (app_py I) w.
Proof.
  revert en scope id env. run_script; intros en scope id x Hin Hc.
  all: rewrite ?elem_of_cons, elem_of_nil in Hin.
  all: repeat (destruct Hin as [-> | Hin]); try contradiction; cbn in Hc;
       try discriminate Hc.
  all: injection Hc as <- <- <-.
  all: split; [reflexivity | split]; rewrite !elem_of_cons; tauto.
Qed.

Lemma stack_receives_constructed_objects_witness :
  let env := Model.MkEnvironment (Some "940333627479") (Some "us-east-1") in
  let en := MLogged (CallAgentBMCPSStack 0 "AgentBMCPSStack" env)
                    (Ok (Model.MkUnit "AgentBMCPSStack" env)) in
  en ∈ calls (app_py Model.imports) Model.fresh /\
  entry_call en = CallAgentBMCPSStack 0 "AgentBMCPSStack" env /\
  MLogged CallApp (Ok 0) ∈ calls (app_py Model.imports) Model.fresh.
Proof.
  intros env en.
  assert (Hin : en ∈ calls (app_py Model.imports) Model.fresh)
    by (vm_compute; repeat constructor).
  split; [exact Hin |]. split; [reflexivity |].
  destruct (stack_receives_constructed_objects Model.imports Model.fresh en
              0 "AgentBMCPSStack" env Hin eq_refl) as (_ & _ & Happ).
  exact Happ.
Defined.

(** X2: whatever the imported callables do, [synth] is only ever called on
    the application that [cdk.App()] returned, and only after the stack
    constructor has returned for that same application, under the name
    "AgentBMCPSStack" and with the descriptor that [cdk.Environment] returned. *)
Theorem synth_on_registered_app (I : Imports) (w : World (ExtT I))
    (en : Entry I) (app : AppT I) :
  en ∈ calls (app_py I) w ->
  entry_call en = CallSynth app ->
  Logged CallApp (Ok app) ∈ calls (app_py I) w /\
  exists env stack,
    Logged (CallEnvironment (Some "940333627479") (Some "us-east-1")) (Ok env)
      ∈ calls (app_py I) w /\
    Logged (CallAgentBMCPSStack app "AgentBMCPSStack" env) (Ok stack)
      ∈ calls (app_py I) w.
Proof.
  revert en app. run_script; intros en x Hin Hc.
  all: rewrite ?elem_of_cons, elem_of_nil in Hin.
  all: repeat (destruct Hin as [-> | Hin]); try contradiction; cbn in Hc;
       try discriminate Hc.
  all: injection Hc as <-.
  all: split; [rewrite !elem_of_cons; tauto |].
  all: exists env, stack; split; rewrite !elem_of_cons; tauto.
Qed.

Lemma synth_on_registered_app_witness :
  let env := Model.MkEnvironment (Some "940333627479") (Some "us-east-1") in
  let u := Model.MkUnit "AgentBMCPSStack" env in
  let en := MLogged (CallSynth 0) (Ok [u]) in
  en ∈ calls (app_py Model.imports) Model.fresh /\
  entry_call en = CallSynth 0 /\
  MLogged CallApp (Ok 0) ∈ calls (app_py Model.imports) Model.fresh.
Proof.
  intros env u en.
  assert (Hin : en ∈ calls (app_py Model.imports) Model.fresh)
    by (vm_compute; repeat constructor).
  split; [exact Hin |]. split; [reflexivity |].
  exact (proj1 (synth_on_registered_app Model.imports Model.fresh en 0 Hin eq_refl)).
Defined.

(** X3: a run that ends normally has made exactly four calls, all of which
    returned, and the module globals [env] and [app] are the values returned
    by the first two: the journal is determined by the globals up to what the
    stack constructor and [synth] returned, which the script discards. *)
Theorem normal_end_journal (I : Imports) (w : World (ExtT I)) (g : Globals I) :
  outcome (app_py I) w = Ok g ->
  exists stack asm,
    calls (app_py I) w =
      [Logged (CallEnvironment (Some "940333627479") (Some "us-east-1")) (Ok (g_env g));
       Logged CallApp (Ok (g_app g));
       Logged (CallAgentBMCPSStack (g_app g) "AgentBMCPSStack" (g_env g)) (Ok stack);
       Logged (CallSynth (g_app g)) (Ok asm)].
Proof.
  revert g. run_script; intros g Hg; try discriminate Hg.
  injection Hg as <-. by exists stack, asm.
Qed.

Lemma normal_end_journal_witness :
  let g : Globals Model.imports :=
    @MkGlobals Model.imports
      (Model.MkEnvironment (Some "940333627479") (Some "us-east-1")) 0 in
  outcome (app_py Model.imports) Model.fresh = Ok g /\
  length (calls (app_py Model.imports) Model.fresh) = 4.
Proof.
  intros g.
  assert (Ho : outcome (app_py Model.imports) Model.fresh = Ok g) by reflexivity.
  split; [exact Ho |].
  destruct (normal_end_journal Model.imports Model.fresh g Ho) as (stack & asm & ->).
  reflexivity.
Defined.

(** ** What the script leaves alone *)

Section Preservation.
Context {I : Imports} (P : World (ExtT I) -> Prop).

Lemma ret_preserves {A : Type} (a : A) : script_preserves (I := I) P (ret a).
Proof. by intros s Hs. Qed.

Lemma perform_preserves (c : Call I) :
  imports_preserve I P -> script_preserves P (perform c).
Proof.
  intros HI s Hs. unfold perform.
  specialize (HI c (world s) Hs).
  by destruct (invoke c (world s)) as [r w'].
Qed.

Lemma bind_preserves {A B : Type} (m : Script I A) (k : A -> Script I B) :
  script_preserves P m -> (forall a, script_preserves P (k a)) ->
  script_preserves P (bind m k).
Proof.
  intros Hm Hk s Hs. unfold bind.
  specialize (Hm s Hs).
  destruct (m s) as [[a | e] s']; [by apply Hk | exact Hm].
Qed.

Lemma bootstrap_preserves (a r : option string) :
  imports_preserve I P -> script_preserves P (bootstrap I a r).
Proof.
  intros HI. unfold bootstrap.
  repeat (apply bind_preserves; [by apply perform_preserves | intros ?]).
  apply ret_preserves.
Qed.

End Preservation.

(** The modelled framework leaves the process environment as it is. *)
Lemma model_keeps_environ (c : Call Model.imports) (w : World Model.Engine) :
  environ (snd (invoke c w)) = environ w.
Proof.
  destruct c; cbn [invoke Model.imports cdk_Environment cdk_App AgentBMCPSStack synth];
    unfold Model.Environment, Model.App, Model.Stack, Model.Synth, Model.with_ext;
    repeat case_match; reflexivity.
Qed.

(** X4: the script has no effect of its own on the process state.  A property
    of the state that each of the four imported callables keeps, on return
    and on raise alike, holds after the script if it held before, however the
    run ends. *)
Theorem invariant_kept (I : Imports) (P : World (ExtT I) -> Prop)
    (w : World (ExtT I)) :
  imports_preserve I P -> P w -> P (final (app_py I) w).
Proof.
  intros HI Hw. rewrite app_py_bootstrap.
  exact (bootstrap_preserves P _ _ HI (start w) Hw).
Qed.

Lemma invariant_kept_witness :
  let P := fun w : World Model.Engine => Model.fault (ext w) = None in
  imports_preserve Model.imports P /\
  P Model.fresh /\
  P (final (app_py Model.imports) Model.fresh).
Proof.
  intros P.
  assert (HI : imports_preserve Model.imports P).
  { intros c [v [cs f o]]; unfold P; cbn [ext Model.fault]; intros ->.
    destruct c; cbn [invoke Model.imports cdk_Environment cdk_App AgentBMCPSStack synth];
      unfold Model.Environment, Model.App, Model.Stack, Model.Synth, Model.with_ext;
      cbn [ext Model.contexts Model.fault Model.cdk_out];
      repeat case_match; reflexivity. }
  assert (Hw : P Model.fresh) by reflexivity.
  split; [exact HI |]. split; [exact Hw |].
  exact (invariant_kept Model.imports P Model.fresh HI Hw).
Defined.

(** X5: the script imports [os] but writes nothing to [os.environ]: when the
    imported callables leave the process environment as they found it, the
    environment after the run, normal or not, is the one the process started
    with. *)
Theorem environ_untouched (I : Imports) (w : World (ExtT I)) :
  (forall (c : Call I) (w' : World (ExtT I)),
      environ (snd (invoke c w')) = environ w') ->
  environ (final (app_py I) w) = environ w.
Proof.
  intros HI. rewrite app_py_bootstrap.
  apply (bootstrap_preserves (fun w' => environ w' = environ w) _ _).
  - intros c w' Hw'. by rewrite HI.
  - reflexivity.
Qed.

Lemma environ_untouched_witness :
  (forall (c : Call Model.imports) (w' : World Model.Engine),
      environ (snd (invoke c w')) = environ w') /\
  environ (final (app_py Model.imports) with_cdk_defaults) = environ with_cdk_defaults.
Proof.
  split; [exact model_keeps_environ |].
  exact (environ_untouched Model.imports with_cdk_defaults model_keeps_environ).
Defined.

(** ** Where a failing run stops *)

(** X6: whichever of the four calls raises, the steps taken are those of the
    source up to and including the failing one, and none after it: a failure
    of [cdk.Environment] leaves no application behind, a failure of [cdk.App]
    no stack, a failure of the stack constructor no synthesis. *)
Theorem failing_step_ends_run (I : Imports) (w : World (ExtT I))
    (en : Entry I) (e : ExcT I) :
  en ∈ calls (app_py I) w ->
  entry_raised en = Some e ->
  steps (calls (app_py I) w)
    = take (S (rank (step_of (entry_call en)))) source_order.
Proof.
  revert en e. run_script; intros en x Hin Hr.
  all: rewrite ?elem_of_cons, elem_of_nil in Hin.
  all: repeat (destruct Hin as [-> | Hin]); try contradiction; cbn in Hr;
       try discriminate Hr; reflexivity.
Qed.

Lemma failing_step_ends_run_witness :
  let en : Entry Double.imports :=
    Logged (CallAgentBMCPSStack (I := Double.imports) 0 "AgentBMCPSStack"
              (Model.MkEnvironment (Some "940333627479") (Some "us-east-1")))
           (Raise (Model.DuplicateName "AgentBMCPSStack")) in
  en ∈ calls (app_py Double.imports) Model.fresh /\
  entry_raised en = Some (Model.DuplicateName "AgentBMCPSStack") /\
  steps (calls (app_py Double.imports) Model.fresh)
    = [ConstructEnvironment; ConstructApp; ConstructStack].
Proof.
  intros en.
  assert (Hin : en ∈ calls (app_py Double.imports) Model.fresh)
    by (vm_compute; repeat constructor).
  split; [exact Hin |]. split; [reflexivity |].
  exact (failing_step_ends_run Double.imports Model.fresh en
           (Model.DuplicateName "AgentBMCPSStack") Hin eq_refl).
Defined.
